(** * kafkian.producer: a shallow embedding of [Producer] and its contract

    The module [kafkian/producer.py] wraps Confluent's C producer.  Every
    method of the wrapper is a short sequence of calls to collaborators that
    live outside the module: the two serializers, the structlog logger, the
    [atexit] registry, the C producer handle and the user's delivery
    observers.  The embedding below runs each method in a small state and
    exception monad whose state is the chronological list of those calls
    (the trace) together with the [atexit] registry, so that the statements
    about "what is called, with what, in which order" become statements
    about lists. *)

From Stdlib Require Import ZArith SpecFloat.
From stdpp Require Import base option list strings pretty gmap.

Local Open Scope string_scope.
Local Open Scope Z_scope.
Local Open Scope list_scope.

(** ** Python values *)

(** The objects that flow through the producer: keys, values, timeouts and
    the [sync] flag.  [PyObj] stands for any other object; it carries its
    identity and the answer of its [__bool__]. *)
Inductive PyVal : Type :=
| PyNone
| PyBool (b : bool)
| PyInt (n : Z)
| PyFloat (f : spec_float)
| PyStr (s : string)
| PyBytes (bs : list Byte.byte)
| PyObj (id : nat) (truth : bool).

(** Python's truth value testing, as used by [if x:] and [x or y]. *)
Definition truthy (v : PyVal) : bool :=
  match v with
  | PyNone => false
  | PyBool b => b
  | PyInt n => negb (n =? 0)
  | PyFloat (S754_zero _) => false
  | PyFloat _ => true
  | PyStr s => negb (String.eqb s "")
  | PyBytes [] => false
  | PyBytes (_ :: _) => true
  | PyObj _ t => t
  end.

(** [v is not None] *)
Definition is_not_None (v : PyVal) : bool :=
  match v with
  | PyNone => false
  | _ => true
  end.

(** [x or y] *)
Definition py_or (x y : PyVal) : PyVal := if truthy x then x else y.

(** A raised exception: its class name and its message. *)
Record PyExc : Type := MkExc { exc_class : string; exc_msg : string }.

(** How a call ends. *)
Inductive Outcome (A : Type) : Type :=
| Return (a : A)
| Raise (e : PyExc).
Arguments Return {A} a.
Arguments Raise {A} e.

(** ** Objects handed over by the C client *)

(** [confluent_kafka.KafkaError]: the numeric code, the name the client
    gives that code and the description.  The type defines neither
    [__bool__] nor [__len__], so an instance is always truthy: [if err:]
    asks whether an error object was passed at all. *)
Record KafkaError : Type := MkKafkaError {
  err_code : Z;
  err_name : string;
  err_str : string
}.

(** The double quote character (code 34). *)
Definition double_quote : string := String (Ascii.ascii_of_nat 34) EmptyString.

(** [str(err)], the client's [__str__] of an error that carries no flag:
    the text [KafkaError{code=NAME,val=CODE,str=DESCRIPTION}] with the
    description between double quotes. *)
Definition str (e : KafkaError) : string :=
  "KafkaError{code=" +:+ err_name e +:+
  ",val=" +:+ pretty (err_code e) +:+
  ",str=" +:+ double_quote +:+ err_str e +:+ double_quote +:+ "}".

(** [confluent_kafka.Message], through the accessors the producer reads. *)
Record Message : Type := MkMessage {
  topic : PyVal;
  key : PyVal;
  value : PyVal;
  partition : PyVal
}.

(** ** Configuration *)

(** The bound methods of the producer that end up in the configuration or in
    the [atexit] registry. *)
Inductive Method : Type :=
| M_on_delivery
| M_on_error
| M_on_throttle
| M_on_stats
| M_close.

(** A configuration value: a Python value supplied by the caller or by the
    defaults, or a bound method of this producer. *)
Inductive CfgVal : Type :=
| CfgPy (v : PyVal)
| CfgBound (m : Method).

Abbreviation Config := (gmap string CfgVal).

(** ** The trace of calls to collaborators *)

Inductive Level : Type := Debug | Info | Warning | Error.

(** A keyword argument of a structlog call. *)
Inductive LogVal : Type :=
| LVal (v : PyVal)
| LConfig (c : Config)
| LError (e : KafkaError).

(** Which serializer attribute of the producer a call goes through. *)
Inductive Slot : Type := KeySerializer | ValueSerializer.

(** A positional argument of an observer call. *)
Inductive CbArg : Type :=
| ArgMsg (m : Message)
| ArgErr (e : option KafkaError).

Inductive Event : Type :=
| EvLog (level : Level) (event : string) (kw : list (string * LogVal))
| EvAtexitRegister (m : Method)
| EvImplInit (config : Config)
| EvSerialize (slot : Slot) (v : PyVal) (topic : PyVal) (is_key : bool)
| EvImplProduce (topic : PyVal) (value : PyVal) (key : PyVal)
| EvImplFlush (timeout : option PyVal)
| EvImplPoll (timeout : PyVal)
| EvCallback (name : string) (args : list CbArg)
| EvForeignCallback (f : PyVal) (args : list CbArg)
| EvPprintJson (parsed : PyVal).

(** ** Collaborators

    The collaborators are not part of the module.  Each is given by what it
    answers to a call; the answer may depend on everything that happened
    before (the trace at the time of the call), which covers collaborators
    with state of their own. *)

(** [kafkian.serde.serialization.Serializer]: the method
    [serialize(value, topic, **kwargs)].  The flag tells whether the call
    passes [is_key=True]; the producer passes it for keys and passes no
    keyword for values. *)
Record Serializer : Type := MkSerializer {
  serialize : list Event -> PyVal -> PyVal -> bool -> Outcome PyVal
}.

(** A delivery observer: a named callable that returns or raises. *)
Record Observer : Type := MkObserver {
  obs_name : string;
  obs_call : list Event -> list CbArg -> option PyExc
}.

(** [confluent_kafka.cimpl.Producer]: the constructor and the three methods
    the wrapper calls. *)
Record ConfluentProducer : Type := MkConfluentProducer {
  impl_new : list Event -> Config -> option PyExc;
  impl_produce : list Event -> PyVal -> PyVal -> PyVal -> option PyExc;
  impl_flush : list Event -> option PyVal -> Outcome PyVal;
  impl_poll : list Event -> PyVal -> Outcome PyVal
}.

(** A constructed handle: the client's behaviour and the configuration it
    was constructed with. *)
Record Handle : Type := MkHandle {
  handle_impl : ConfluentProducer;
  handle_config : Config
}.

(** ** The state and exception monad *)

Record World : Type := MkWorld {
  trace : list Event;
  atexit_registry : list Method
}.

Definition M (A : Type) : Type := World -> Outcome A * World.

Definition ret {A} (a : A) : M A := fun w => (Return a, w).

Definition bind {A B} (m : M A) (k : A -> M B) : M B :=
  fun w =>
    match m w with
    | (Return a, w') => k a w'
    | (Raise e, w') => (Raise e, w')
    end.

Notation "x <- m ;; k" := (bind m (fun x => k))
  (at level 100, m at next level, right associativity).
Notation "m ;; k" := (bind m (fun _ => k))
  (at level 100, right associativity).

Definition raise {A} (e : PyExc) : M A := fun w => (Raise e, w).

(** Record a call in the trace. *)
Definition emit (ev : Event) : M unit :=
  fun w => (Return tt, MkWorld (trace w ++ [ev]) (atexit_registry w)).

(** A call to a collaborator: it is recorded, and it ends the way the
    collaborator says, given what happened before the call. *)
Definition extcall {A} (ev : Event) (answer : list Event -> Outcome A) : M A :=
  fun w => (answer (trace w), MkWorld (trace w ++ [ev]) (atexit_registry w)).

Definition of_exc (o : option PyExc) : Outcome unit :=
  match o with
  | None => Return tt
  | Some e => Raise e
  end.

(** [for x in xs: body(x)] *)
Fixpoint for_each {A} (body : A -> M unit) (xs : list A) : M unit :=
  match xs with
  | [] => ret tt
  | x :: xs' => body x ;; for_each body xs'
  end.

(** The structlog logger. *)
Definition logger (level : Level) (event : string) (kw : list (string * LogVal)) : M unit :=
  emit (EvLog level event kw).

(** [atexit.register(self.<m>)] *)
Definition atexit_register (m : Method) : M unit :=
  fun w => (Return tt, MkWorld (trace w ++ [EvAtexitRegister m]) (m :: atexit_registry w)).

(** ** class Producer *)

Record Producer : Type := MkProducer {
  value_serializer : Serializer;
  key_serializer : Serializer;
  success_callbacks : option (list Observer);
  error_callbacks : option (list Observer);
  _producer_impl : Handle
}.

(** The truth value of a callbacks attribute: [None] (the default) and the
    empty list are falsy. *)
Definition callbacks_truthy (callbacks : option (list Observer)) : bool :=
  match callbacks with
  | Some (_ :: _) => true
  | _ => false
  end.

(** The observers a callbacks attribute holds. *)
Definition registered (callbacks : option (list Observer)) : list Observer :=
  match callbacks with
  | None => []
  | Some cbs => cbs
  end.

(** The call [cb( *args )] of one observer. *)
Definition call (cb : Observer) (args : list CbArg) : M unit :=
  extcall (EvCallback (obs_name cb) args) (fun h => of_exc (obs_call cb h args)).

Section DefaultConfig.

(** [socket.gethostname()], evaluated once when the class body runs. *)
Variable hostname : string.

Definition DEFAULT_CONFIG : Config :=
  <["acks" := CfgPy (PyStr "all")]>
  (<["api.version.request" := CfgPy (PyBool true)]>
  (<["client.id" := CfgPy (PyStr hostname)]>
  (<["log.connection.close" := CfgPy (PyBool false)]>
  (<["max.in.flight" := CfgPy (PyInt 1)]>
  (<["queue.buffering.max.ms" := CfgPy (PyInt 100)]>
  (<["statistics.interval.ms" := CfgPy (PyInt 15000)]> ∅)))))).

(** Lines 45 to 49 of [__init__]: [{**self.DEFAULT_CONFIG, **config}]
    (the later mapping wins, which is stdpp's left-biased union with the
    caller's mapping on the left), then the four item assignments. *)
Definition effective_config (config : Config) : Config :=
  let config := config ∪ DEFAULT_CONFIG in
  let config := <["on_delivery" := CfgBound M_on_delivery]> config in
  let config := <["error_cb" := CfgBound M_on_error]> config in
  let config := <["throttle_cb" := CfgBound M_on_throttle]> config in
  let config := <["stats_cb" := CfgBound M_on_stats]> config in
  config.

(** [Producer._init_producer_impl(config)]: [ConfluentProducer(config)]. *)
Definition _init_producer_impl (cimpl : ConfluentProducer) (config : Config) : M Handle :=
  extcall (EvImplInit config) (fun h => of_exc (impl_new cimpl h config)) ;;
  ret (MkHandle cimpl config).

(** [Producer.__init__].  The C class is a parameter, as the static
    method [_init_producer_impl] exists to make it replaceable. *)
Definition __init__ (cimpl : ConfluentProducer) (config : Config)
    (value_serializer key_serializer : Serializer)
    (success_callbacks error_callbacks : option (list Observer)) : M Producer :=
  let config := effective_config config in
  logger Info "Initializing producer" [("config", LConfig config)] ;;
  atexit_register M_close ;;
  impl <- _init_producer_impl cimpl config ;;
  ret (MkProducer value_serializer key_serializer
                  success_callbacks error_callbacks impl).

End DefaultConfig.

(** The configuration keys [__init__] assigns after the merge. *)
Definition callback_keys : list string :=
  ["on_delivery"; "error_cb"; "throttle_cb"; "stats_cb"].

(** The three keys the documentation names as reserved for the producer:
    the delivery, error and throttle callbacks. *)
Definition reserved_keys : list string :=
  ["on_delivery"; "error_cb"; "throttle_cb"].

(** [Producer.flush] *)
Definition flush (self : Producer) (timeout : PyVal) : M unit :=
  logger Info "Flushing producer" [] ;;
  let impl := handle_impl (_producer_impl self) in
  if truthy timeout
  then extcall (EvImplFlush (Some timeout)) (fun h => impl_flush impl h (Some timeout)) ;; ret tt
  else extcall (EvImplFlush None) (fun h => impl_flush impl h None) ;; ret tt.

(** [Producer._close] *)
Definition _close (self : Producer) : M unit :=
  flush self PyNone.

(** [Producer.poll] *)
Definition poll (self : Producer) (timeout : PyVal) : M PyVal :=
  let timeout := py_or timeout (PyInt 1) in
  extcall (EvImplPoll timeout) (fun h => impl_poll (handle_impl (_producer_impl self)) h timeout).

(** [Producer._produce] (no extra keyword arguments are passed by
    [produce]). *)
Definition _produce (self : Producer) (topic key value : PyVal) : M unit :=
  extcall (EvImplProduce topic value key)
          (fun h => of_exc (impl_produce (handle_impl (_producer_impl self)) h topic value key)).

(** [Producer.produce] *)
Definition produce (self : Producer) (topic key value sync : PyVal) : M unit :=
  key <- extcall (EvSerialize KeySerializer key topic true)
                 (fun h => serialize (key_serializer self) h key topic true) ;;
  value <- (if is_not_None value
            then extcall (EvSerialize ValueSerializer value topic false)
                         (fun h => serialize (value_serializer self) h value topic false)
            else ret value) ;;
  _produce self topic key value ;;
  if truthy sync then flush self PyNone else ret tt.

(** [Producer._on_delivery] *)
Definition _on_delivery (self : Producer) (err : option KafkaError) (msg : Message) : M unit :=
  match err with
  | Some e =>
      logger Warning "Producer send failed"
             [("error_message", LVal (PyStr (str e)));
              ("topic", LVal (topic msg));
              ("key", LVal (key msg));
              ("partition", LVal (partition msg))] ;;
      if callbacks_truthy (error_callbacks self)
      then for_each (fun cb => call cb [ArgMsg msg; ArgErr err])
                    (registered (error_callbacks self))
      else ret tt
  | None =>
      logger Debug "Producer send succeeded"
             [("topic", LVal (topic msg));
              ("key", LVal (key msg));
              ("partition", LVal (partition msg))] ;;
      if callbacks_truthy (success_callbacks self)
      then for_each (fun cb => call cb [ArgErr err])
                    (registered (success_callbacks self))
      else ret tt
  end.

(** [Producer._on_error] *)
Definition _on_error (self : Producer) (error : KafkaError) : M unit :=
  logger Error "Error" [("error", LError error)].

(** [Producer._on_throttle] *)
Definition _on_throttle (self : Producer) (event : PyVal) : M unit :=
  logger Warning "Throttle" [("tevent", LVal event)].

(** [Producer._on_stats]: [pprint(json.loads(stats))].  [json.loads] is the
    standard library's parser and is a parameter: it returns the parsed
    document or raises on a payload that is not JSON, and then nothing is
    printed and the exception leaves [_on_stats]. *)
Definition _on_stats (json_loads : PyVal -> Outcome PyVal)
    (self : Producer) (stats : PyVal) : M unit :=
  match json_loads stats with
  | Return parsed => emit (EvPprintJson parsed)
  | Raise e => raise e
  end.

(** ** The runtime around the producer *)

(** What the C client does when a delivery report is due: it calls whatever
    object its configuration holds under ["on_delivery"]. *)
Definition deliver (self : Producer) (err : option KafkaError) (msg : Message) : M unit :=
  match handle_config (_producer_impl self) !! "on_delivery" with
  | Some (CfgBound M_on_delivery) => _on_delivery self err msg
  | Some (CfgBound _) => raise (MkExc "TypeError" "wrong number of arguments")
  | Some (CfgPy f) => emit (EvForeignCallback f [ArgErr err; ArgMsg msg])
  | None => ret tt
  end.

(** Calling a registered bound method with no argument, as [atexit] does. *)
Definition run_exit_function (self : Producer) (m : Method) : M unit :=
  match m with
  | M_close => _close self
  | _ => raise (MkExc "TypeError" "missing required positional argument")
  end.

(** The interpreter at normal exit: the registered functions run last
    registered first; an exception raised by one is reported and the
    others still run. *)
Fixpoint run_exitfuncs (self : Producer) (fs : list Method) : M unit :=
  match fs with
  | [] => ret tt
  | f :: fs' =>
      fun w => let '(_, w') := run_exit_function self f w in run_exitfuncs self fs' w'
  end.

Definition process_exit (self : Producer) : M unit :=
  fun w => run_exitfuncs self (atexit_registry w) w.

(** The calls a computation adds to the trace of the world it starts in. *)
Definition new_events {A} (m : M A) (w : World) : list Event :=
  drop (length (trace w)) (trace (snd (m w))).

Definition result {A} (m : M A) (w : World) : Outcome A := fst (m w).

(** ** Classifying the calls of a trace *)

Definition is_value_serialize (ev : Event) : bool :=
  match ev with
  | EvSerialize ValueSerializer _ _ _ => true
  | _ => false
  end.

Definition is_enqueue (ev : Event) : bool :=
  match ev with
  | EvImplProduce _ _ _ => true
  | _ => false
  end.

Definition is_flush (ev : Event) : bool :=
  match ev with
  | EvImplFlush _ => true
  | _ => false
  end.

Definition is_callback (ev : Event) : bool :=
  match ev with
  | EvCallback _ _ => true
  | _ => false
  end.

(** The observers [_on_delivery] loops over, and the arguments it passes to
    each, by the branch taken on [err]. *)
Definition observers_for (self : Producer) (err : option KafkaError) : list Observer :=
  match err with
  | Some _ => registered (error_callbacks self)
  | None => registered (success_callbacks self)
  end.

Definition args_for (err : option KafkaError) (msg : Message) : list CbArg :=
  match err with
  | Some _ => [ArgMsg msg; ArgErr err]
  | None => [ArgErr err]
  end.

(** The trace of calling each of [cbs] once, in order, with [args]. *)
Definition calls (args : list CbArg) (cbs : list Observer) : list Event :=
  map (fun cb => EvCallback (obs_name cb) args) cbs.

(** Every observer of [cbs] returns when it is called in its turn: the
    run starts at history [h], and an observer is called after the calls
    of the observers before it. *)
Definition returns_in_turn (args : list CbArg) (h : list Event) (cbs : list Observer) : Prop :=
  forall pre cb post,
    cbs = pre ++ cb :: post -> obs_call cb (h ++ calls args pre) args = None.

(** The log line [_on_delivery] writes first. *)
Definition delivery_log (err : option KafkaError) (msg : Message) : Event :=
  match err with
  | Some e =>
      EvLog Warning "Producer send failed"
            [("error_message", LVal (PyStr (str e)));
             ("topic", LVal (topic msg));
             ("key", LVal (key msg));
             ("partition", LVal (partition msg))]
  | None =>
      EvLog Debug "Producer send succeeded"
            [("topic", LVal (topic msg));
             ("key", LVal (key msg));
             ("partition", LVal (partition msg))]
  end.

(** ** Concrete collaborators, for running the model *)

Module Fixtures.

(** The pass-through serializer. *)
Definition passthrough : Serializer :=
  MkSerializer (fun _ v _ _ => Return v).

Definition unencodable : PyExc := MkExc "SerializationError" "not encodable".

(** A serializer that rejects every value. *)
Definition rejecting : Serializer :=
  MkSerializer (fun _ _ _ _ => Raise unencodable).

(** A client whose calls all succeed. *)
Definition quiet_client : ConfluentProducer :=
  MkConfluentProducer (fun _ _ => None) (fun _ _ _ _ => None)
                      (fun _ _ => Return (PyInt 0)) (fun _ _ => Return (PyInt 0)).

Definition boom : PyExc := MkExc "RuntimeError" "boom".

(** An observer that returns, and one that raises. *)
Definition returning (name : string) : Observer := MkObserver name (fun _ _ => None).
Definition raising (name : string) : Observer := MkObserver name (fun _ _ => Some boom).

Definition w0 : World := MkWorld [] [].

Definition producer_with (vs ks : Serializer) (scb ecb : option (list Observer)) : Producer :=
  MkProducer vs ks scb ecb (MkHandle quiet_client ∅).

Definition plain : Producer := producer_with passthrough passthrough None None.

Definition k1 : PyVal := PyBytes [Byte.x6b; Byte.x31].
Definition v1 : PyVal := PyBytes [Byte.x76; Byte.x31].
Definition orders : PyVal := PyStr "orders".

Definition msg1 : Message := MkMessage orders k1 v1 (PyInt 0).
Definition timed_out : KafkaError :=
  MkKafkaError (-185) "_MSG_TIMED_OUT" "Local: Message timed out".

End Fixtures.

(** ** Callers of the producer *)

Definition is_key_serialize (ev : Event) : bool :=
  match ev with
  | EvSerialize KeySerializer _ _ _ => true
  | _ => false
  end.

(** One call on a constructed producer: by the application ([produce],
    [flush], [poll]) or by the C client through a callback slot. *)
Inductive Call : Type :=
| CallProduce (topic key value sync : PyVal)
| CallFlush (timeout : PyVal)
| CallPoll (timeout : PyVal)
| CallOnDelivery (err : option KafkaError) (msg : Message)
| CallOnError (error : KafkaError)
| CallOnThrottle (event : PyVal).

Definition do_call (self : Producer) (c : Call) : M unit :=
  match c with
  | CallProduce topic key value sync => produce self topic key value sync
  | CallFlush timeout => flush self timeout
  | CallPoll timeout => poll self timeout ;; ret tt
  | CallOnDelivery err msg => _on_delivery self err msg
  | CallOnError error => _on_error self error
  | CallOnThrottle event => _on_throttle self event
  end.

(** A run of calls made one after the other by callers that go on after a
    call has raised. *)
Fixpoint session (self : Producer) (cs : list Call) : M unit :=
  match cs with
  | [] => ret tt
  | c :: cs' => fun w => let '(_, w') := do_call self c w in session self cs' w'
  end.

(** The producer side of [tests/system/test_produce_consume_b.py]. *)
Module TestProduceConsume.

Definition KAFKA_BOOTSTRAP_SERVERS : PyVal := PyStr "localhost:29092".

Definition PRODUCER_CONFIG : Config :=
  {["bootstrap.servers" := CfgPy KAFKA_BOOTSTRAP_SERVERS]}.

(** The fixture [producer]: [Producer(PRODUCER_CONFIG)].  The two default
    serializers are instances of a class outside the module and are
    parameters. *)
Definition producer (hostname : string) (cimpl : ConfluentProducer)
    (default_value_serializer default_key_serializer : Serializer) : M Producer :=
  __init__ hostname cimpl PRODUCER_CONFIG
           default_value_serializer default_key_serializer None None.

(** The fixture followed by [producer.produce(TEST_TOPIC, key, value,
    sync=True)], as in both tests; [value] is [None] in the second. *)
Definition produce_one (hostname : string) (cimpl : ConfluentProducer)
    (default_value_serializer default_key_serializer : Serializer)
    (TEST_TOPIC key value : PyVal) : M unit :=
  self <- producer hostname cimpl default_value_serializer default_key_serializer ;;
  produce self TEST_TOPIC key value (PyBool true).

End TestProduceConsume.

(** * Theorems *)

(** ** Stepping the monad *)

Lemma new_events_app {A} (m : M A) (w : World) (evs : list Event) :
  trace (snd (m w)) = trace w ++ evs -> new_events m w = evs.
Proof.
  intros H. unfold new_events. rewrite H. apply drop_app_length.
Qed.

Ltac step_monad :=
  unfold result, bind, extcall, emit, ret, raise, logger, of_exc in *; simpl in *.

Ltac finish_trace :=
  simpl; rewrite <- ?app_assoc; simpl; try reflexivity.

(** ** [flush] *)

(** C10.  [flush] hands its timeout to the client's timed flush exactly when
    the timeout is truthy.  For every falsy timeout, an explicit [0]
    included, the call it makes is the client's flush without a timeout,
    the one that waits without bound. *)
Theorem flush_forwards_only_truthy_timeout :
  forall (self : Producer) (timeout : PyVal) (w : World),
    (truthy timeout = true ->
       new_events (flush self timeout) w =
         [EvLog Info "Flushing producer" []; EvImplFlush (Some timeout)]) /\
    (truthy timeout = false ->
       new_events (flush self timeout) w =
         [EvLog Info "Flushing producer" []; EvImplFlush None]) /\
    new_events (flush self (PyInt 0)) w =
      [EvLog Info "Flushing producer" []; EvImplFlush None].
Proof.
  intros self timeout w.
  assert (Hfalsy : forall t, truthy t = false ->
            new_events (flush self t) w =
              [EvLog Info "Flushing producer" []; EvImplFlush None]).
  { intros t Ht. apply new_events_app. unfold flush. rewrite Ht. step_monad.
    destruct (impl_flush _ _ None); finish_trace. }
  split; [| split].
  - intros Ht. apply new_events_app. unfold flush. rewrite Ht. step_monad.
    destruct (impl_flush _ _ (Some timeout)); finish_trace.
  - apply Hfalsy.
  - apply Hfalsy. reflexivity.
Qed.

(** The theorem at a timeout of half a second and at a timeout of [0.0]. *)
Lemma flush_forwards_only_truthy_timeout_witness :
  new_events (flush Fixtures.plain (PyFloat (S754_finite false 1 (-1)))) Fixtures.w0 =
    [EvLog Info "Flushing producer" [];
     EvImplFlush (Some (PyFloat (S754_finite false 1 (-1))))] /\
  new_events (flush Fixtures.plain (PyFloat (S754_zero false))) Fixtures.w0 =
    [EvLog Info "Flushing producer" []; EvImplFlush None].
Proof.
  split.
  - exact (proj1 (flush_forwards_only_truthy_timeout
                    Fixtures.plain (PyFloat (S754_finite false 1 (-1))) Fixtures.w0)
                 eq_refl).
  - exact (proj1 (proj2 (flush_forwards_only_truthy_timeout
                           Fixtures.plain (PyFloat (S754_zero false)) Fixtures.w0))
                 eq_refl).
Defined.

(** What [flush] leaves in the trace, whatever the timeout. *)
Lemma flush_trace (self : Producer) (timeout : PyVal) (w : World) :
  trace (snd (flush self timeout w)) =
    trace w ++ [EvLog Info "Flushing producer" [];
                EvImplFlush (if truthy timeout then Some timeout else None)].
Proof.
  unfold flush. step_monad.
  destruct (truthy timeout); step_monad;
    destruct (impl_flush _ _ _); finish_trace.
Qed.

(** ** [produce] *)

Ltac break_match :=
  match goal with
  | |- context [if ?b then _ else _] => destruct b eqn:?
  | |- context [serialize ?s ?h ?v ?t ?k] => destruct (serialize s h v t k) eqn:?
  | |- context [impl_produce ?c ?h ?t ?v ?k] => destruct (impl_produce c h t v k) eqn:?
  | |- context [impl_flush ?c ?h ?t] => destruct (impl_flush c h t) eqn:?
  | |- context [obs_call ?o ?h ?a] => destruct (obs_call o h a) eqn:?
  end.

Ltac new_trace :=
  unfold new_events; cbn [trace snd fst atexit_registry];
  rewrite <- ?app_assoc; rewrite ?drop_app_length; cbn [app].

(** Every path through [produce], by the answers of the collaborators. *)
Ltac run_produce :=
  unfold new_events, produce, _produce, flush; step_monad;
  repeat (break_match; step_monad); simplify_eq; new_trace.

(** C1.  [produce] always starts by passing the key to the key serializer.
    When the value is [None] the value serializer is not called at all and
    [None] itself is what the client's [produce] receives; any other value,
    an empty one included, goes through the value serializer and the
    client receives the serialized result. *)
Theorem produce_serializes_key_and_present_value :
  forall (self : Producer) (topic key value sync : PyVal) (w : World),
    let evs := new_events (produce self topic key value sync) w in
    let key_call := EvSerialize KeySerializer key topic true in
    let value_call := EvSerialize ValueSerializer value topic false in
    (exists rest, evs = key_call :: rest) /\
    (value = PyNone ->
       Forall (fun ev => is_value_serialize ev = false) evs /\
       forall kb,
         serialize (key_serializer self) (trace w) key topic true = Return kb ->
         exists rest, evs = key_call :: EvImplProduce topic PyNone kb :: rest) /\
    (value <> PyNone ->
       forall kb,
         serialize (key_serializer self) (trace w) key topic true = Return kb ->
         (exists rest, evs = key_call :: value_call :: rest) /\
         forall vb,
           serialize (value_serializer self) (trace w ++ [key_call]) value topic false
             = Return vb ->
           exists rest, evs = key_call :: value_call :: EvImplProduce topic vb kb :: rest).
Proof.
  intros self topic key value sync w evs key_call value_call.
  subst evs key_call value_call. split; [| split].
  - run_produce; eauto.
  - intros ->. split.
    + run_produce; repeat constructor.
    + intros kb Hk. run_produce; eauto.
  - intros Hv kb Hk.
    assert (Hn : is_not_None value = true) by (by destruct value).
    split.
    + run_produce; eauto.
    + intros vb Hvb. run_produce; eauto.
Qed.

(** The theorem at a tombstone and at an empty value, with pass-through
    serializers. *)
Lemma produce_serializes_key_and_present_value_witness :
  (exists rest,
     new_events (produce Fixtures.plain Fixtures.orders Fixtures.k1 PyNone (PyBool false))
                Fixtures.w0 =
       EvSerialize KeySerializer Fixtures.k1 Fixtures.orders true
         :: EvImplProduce Fixtures.orders PyNone Fixtures.k1 :: rest) /\
  (exists rest,
     new_events (produce Fixtures.plain Fixtures.orders Fixtures.k1 (PyBytes []) (PyBool false))
                Fixtures.w0 =
       EvSerialize KeySerializer Fixtures.k1 Fixtures.orders true
         :: EvSerialize ValueSerializer (PyBytes []) Fixtures.orders false
         :: EvImplProduce Fixtures.orders (PyBytes []) Fixtures.k1 :: rest).
Proof.
  split.
  - destruct (produce_serializes_key_and_present_value
                Fixtures.plain Fixtures.orders Fixtures.k1 PyNone (PyBool false) Fixtures.w0)
      as (_ & Htomb & _).
    destruct (Htomb eq_refl) as [_ Henq]. exact (Henq Fixtures.k1 eq_refl).
  - destruct (produce_serializes_key_and_present_value
                Fixtures.plain Fixtures.orders Fixtures.k1 (PyBytes []) (PyBool false)
                Fixtures.w0)
      as (_ & _ & Hpresent).
    assert (Hne : PyBytes [] <> PyNone) by discriminate.
    destruct (Hpresent Hne Fixtures.k1 eq_refl) as [_ Henq].
    exact (Henq (PyBytes []) eq_refl).
Defined.

(** C7.  When the key serializer raises, or the key serializer returns and
    the serializer of a present value raises, [produce] ends by raising
    that same exception and the client's [produce] is not called. *)
Theorem serialization_error_aborts_before_enqueue :
  forall (self : Producer) (topic key value sync : PyVal) (w : World) (e : PyExc),
    serialize (key_serializer self) (trace w) key topic true = Raise e \/
    (exists kb,
       serialize (key_serializer self) (trace w) key topic true = Return kb /\
       value <> PyNone /\
       serialize (value_serializer self)
                 (trace w ++ [EvSerialize KeySerializer key topic true])
                 value topic false = Raise e) ->
    result (produce self topic key value sync) w = Raise e /\
    Forall (fun ev => is_enqueue ev = false)
           (new_events (produce self topic key value sync) w).
Proof.
  intros self topic key value sync w e [Hk | (kb & Hk & Hv & Hvs)].
  - split; run_produce; repeat constructor.
  - assert (Hn : is_not_None value = true) by (by destruct value).
    split; run_produce; repeat constructor.
Qed.

(** The theorem with a value serializer that rejects an empty value. *)
Lemma serialization_error_aborts_before_enqueue_witness :
  result (produce (Fixtures.producer_with Fixtures.rejecting Fixtures.passthrough None None)
                  Fixtures.orders Fixtures.k1 (PyBytes []) (PyBool true))
         Fixtures.w0 = Raise Fixtures.unencodable /\
  Forall (fun ev => is_enqueue ev = false)
         (new_events
            (produce (Fixtures.producer_with Fixtures.rejecting Fixtures.passthrough None None)
                     Fixtures.orders Fixtures.k1 (PyBytes []) (PyBool true))
            Fixtures.w0).
Proof.
  apply (serialization_error_aborts_before_enqueue
           (Fixtures.producer_with Fixtures.rejecting Fixtures.passthrough None None)
           Fixtures.orders Fixtures.k1 (PyBytes []) (PyBool true) Fixtures.w0
           Fixtures.unencodable).
  right. exists Fixtures.k1. repeat split. discriminate.
Defined.

(** C6.  A truthy [sync]: a call of [produce] that returns has ended with
    the enqueue followed by the log line of [flush] and the client's flush
    without a timeout, and made no other flush.  A falsy [sync]: no flush is
    made, and a call that returns has ended with the enqueue. *)
Theorem produce_sync_flushes_after_enqueue :
  forall (self : Producer) (topic key value sync : PyVal) (w : World),
    let evs := new_events (produce self topic key value sync) w in
    (truthy sync = true ->
       result (produce self topic key value sync) w = Return tt ->
       exists pre t v k,
         evs = pre ++ [EvImplProduce t v k;
                       EvLog Info "Flushing producer" [];
                       EvImplFlush None] /\
         Forall (fun ev => is_flush ev = false) pre) /\
    (truthy sync = false ->
       Forall (fun ev => is_flush ev = false) evs /\
       (result (produce self topic key value sync) w = Return tt ->
        exists pre t v k, evs = pre ++ [EvImplProduce t v k])).
Proof.
  intros self topic key value sync w evs. subst evs. split.
  - intros Hs Hr. revert Hr. run_produce; intros Hr; try discriminate.
    + eexists [_; _], _, _, _. split; [reflexivity | repeat constructor].
    + eexists [_], _, _, _. split; [reflexivity | repeat constructor].
  - intros Hs. split.
    + run_produce; repeat constructor.
    + intros Hr. revert Hr. run_produce; intros Hr; try discriminate.
      * by eexists [_; _], _, _, _.
      * by eexists [_], _, _, _.
Qed.

(** The theorem at [sync=True] and at [sync=False]. *)
Lemma produce_sync_flushes_after_enqueue_witness :
  (exists pre t v k,
     new_events (produce Fixtures.plain Fixtures.orders Fixtures.k1 Fixtures.v1 (PyBool true))
                Fixtures.w0 =
       pre ++ [EvImplProduce t v k; EvLog Info "Flushing producer" []; EvImplFlush None] /\
     Forall (fun ev => is_flush ev = false) pre) /\
  Forall (fun ev => is_flush ev = false)
         (new_events (produce Fixtures.plain Fixtures.orders Fixtures.k1 Fixtures.v1 (PyBool false))
                     Fixtures.w0).
Proof.
  split.
  - exact (proj1 (produce_sync_flushes_after_enqueue
                    Fixtures.plain Fixtures.orders Fixtures.k1 Fixtures.v1 (PyBool true)
                    Fixtures.w0) eq_refl eq_refl).
  - exact (proj1 (proj2 (produce_sync_flushes_after_enqueue
                           Fixtures.plain Fixtures.orders Fixtures.k1 Fixtures.v1 (PyBool false)
                           Fixtures.w0) eq_refl)).
Defined.

(** ** [_on_delivery] *)

Lemma call_run (cb : Observer) (args : list CbArg) (w : World) :
  call cb args w =
    (of_exc (obs_call cb (trace w) args),
     MkWorld (trace w ++ [EvCallback (obs_name cb) args]) (atexit_registry w)).
Proof. reflexivity. Qed.

(** The observer loop, when it runs to its end. *)
Lemma for_each_call_return (args : list CbArg) (cbs : list Observer) (w : World) :
  fst (for_each (fun cb => call cb args) cbs w) = Return tt ->
  trace (snd (for_each (fun cb => call cb args) cbs w)) = trace w ++ calls args cbs.
Proof.
  revert w. induction cbs as [| cb cbs IH]; intros w; simpl.
  - intros _. unfold ret. simpl. by rewrite app_nil_r.
  - unfold bind. rewrite call_run.
    destruct (obs_call cb (trace w) args) eqn:Hcb; simpl.
    + discriminate.
    + intros Hr. rewrite (IH _ Hr). simpl. by rewrite <- app_assoc.
Qed.

(** The observer loop, when it is left by an exception: the exception is
    the one raised by some observer, the observers before it were called
    and returned, and it is the last one called. *)
Lemma for_each_call_raise (args : list CbArg) (cbs : list Observer) (w : World) (x : PyExc) :
  fst (for_each (fun cb => call cb args) cbs w) = Raise x ->
  exists pre cb post,
    cbs = pre ++ cb :: post /\
    obs_call cb (trace w ++ calls args pre) args = Some x /\
    trace (snd (for_each (fun cb => call cb args) cbs w)) =
      trace w ++ calls args (pre ++ [cb]).
Proof.
  revert w. induction cbs as [| cb cbs IH]; intros w; simpl.
  - discriminate.
  - unfold bind. rewrite call_run.
    destruct (obs_call cb (trace w) args) eqn:Hcb; simpl.
    + intros [= ->]. exists [], cb, cbs. simpl. by rewrite app_nil_r.
    + intros Hr. destruct (IH _ Hr) as (pre & cb' & post & -> & Hraise & Htr).
      exists (cb :: pre), cb', post. simpl in *.
      rewrite <- app_assoc in Hraise, Htr. auto.
Qed.

(** [_on_delivery] is the log line followed by the observer loop: the guard
    [if self.error_callbacks:] only skips a loop over nothing. *)
Lemma _on_delivery_unfold (self : Producer) (err : option KafkaError) (msg : Message)
    (w : World) :
  _on_delivery self err msg w =
    for_each (fun cb => call cb (args_for err msg)) (observers_for self err)
             (MkWorld (trace w ++ [delivery_log err msg]) (atexit_registry w)).
Proof.
  destruct err; unfold _on_delivery, observers_for.
  - by destruct (error_callbacks self) as [[| cb cbs] |].
  - by destruct (success_callbacks self) as [[| cb cbs] |].
Qed.


(** [returns_in_turn], one observer at a time. *)
Lemma returns_in_turn_cons (args : list CbArg) (h : list Event)
    (cb : Observer) (cbs : list Observer) :
  returns_in_turn args h (cb :: cbs) <->
  obs_call cb h args = None /\
  returns_in_turn args (h ++ [EvCallback (obs_name cb) args]) cbs.
Proof.
  unfold returns_in_turn. split.
  - intros H. split.
    + specialize (H [] cb cbs eq_refl). simpl in H. by rewrite app_nil_r in H.
    + intros pre cb' post ->. specialize (H (cb :: pre) cb' post eq_refl).
      simpl in H. by rewrite <- app_assoc.
  - intros [Hcb Hrest] pre cb' post Heq. destruct pre as [| cb0 pre]; simpl in *.
    + injection Heq as <- _. by rewrite app_nil_r.
    + injection Heq as <- ->. specialize (Hrest pre cb' post eq_refl).
      by rewrite <- app_assoc in Hrest.
Qed.

(** The loop runs to its end exactly when every observer returns in its
    turn, and then every observer has been called. *)
Lemma for_each_call_all_return (args : list CbArg) (cbs : list Observer) (w : World) :
  returns_in_turn args (trace w) cbs ->
  for_each (fun cb => call cb args) cbs w =
    (Return tt, MkWorld (trace w ++ calls args cbs) (atexit_registry w)).
Proof.
  revert w. induction cbs as [| cb cbs IH]; intros w Hall; simpl.
  - unfold ret. rewrite app_nil_r. by destruct w.
  - apply returns_in_turn_cons in Hall as [Hcb Hrest].
    unfold bind. rewrite call_run, Hcb. simpl.
    rewrite IH by exact Hrest. simpl. by rewrite <- app_assoc.
Qed.

Lemma for_each_call_return_inv (args : list CbArg) (cbs : list Observer) (w : World) :
  fst (for_each (fun cb => call cb args) cbs w) = Return tt ->
  returns_in_turn args (trace w) cbs.
Proof.
  revert w. induction cbs as [| cb cbs IH]; intros w; simpl.
  - intros _ pre cb post Heq. by destruct pre.
  - unfold bind. rewrite call_run.
    destruct (obs_call cb (trace w) args) eqn:Hcb; simpl; [discriminate |].
    intros Hr. apply returns_in_turn_cons. split; [exact Hcb |].
    exact (IH _ Hr).
Qed.

(** The loop is left by the exception of the first observer that raises
    in its turn, and that observer is the last one called. *)
Lemma for_each_call_stops_at_first_raise (args : list CbArg) (pre post : list Observer)
    (cb : Observer) (w : World) (x : PyExc) :
  returns_in_turn args (trace w) pre ->
  obs_call cb (trace w ++ calls args pre) args = Some x ->
  for_each (fun cb => call cb args) (pre ++ cb :: post) w =
    (Raise x, MkWorld (trace w ++ calls args (pre ++ [cb])) (atexit_registry w)).
Proof.
  revert w. induction pre as [| cb0 pre IH]; intros w Hpre Hcb; simpl in *.
  - unfold bind. rewrite call_run. rewrite app_nil_r in Hcb. by rewrite Hcb.
  - apply returns_in_turn_cons in Hpre as [Hcb0 Hpre].
    unfold bind. rewrite call_run, Hcb0. simpl.
    rewrite IH; simpl.
    + by rewrite <- app_assoc.
    + exact Hpre.
    + by rewrite <- app_assoc.
Qed.

Lemma for_each_call_raise_inv (args : list CbArg) (cbs : list Observer) (w : World)
    (x : PyExc) :
  fst (for_each (fun cb => call cb args) cbs w) = Raise x ->
  exists pre cb post,
    cbs = pre ++ cb :: post /\
    returns_in_turn args (trace w) pre /\
    obs_call cb (trace w ++ calls args pre) args = Some x.
Proof.
  revert w. induction cbs as [| cb cbs IH]; intros w; simpl.
  - discriminate.
  - unfold bind. rewrite call_run.
    destruct (obs_call cb (trace w) args) eqn:Hcb; simpl.
    + intros [= ->]. exists [], cb, cbs. simpl. rewrite app_nil_r.
      repeat split; [| exact Hcb]. intros pre cb' post Heq. by destruct pre.
    + intros Hr. destruct (IH _ Hr) as (pre & cb' & post & -> & Hpre & Hraise).
      exists (cb :: pre), cb', post. simpl in *.
      rewrite <- app_assoc in Hraise. repeat split; [| exact Hraise].
      apply returns_in_turn_cons. by split.
Qed.

(** What a success observer is passed.  At a successful delivery with one
    success observer, the observer is called after the debug line with
    [err], which is [None] on this branch, and not with the delivered
    message that the error branch passes to its observers. *)
Lemma success_observer_is_passed_err :
  new_events
    (_on_delivery
       (Fixtures.producer_with Fixtures.passthrough Fixtures.passthrough
                               (Some [Fixtures.returning "on_success"]) None)
       None Fixtures.msg1)
    Fixtures.w0 =
    [EvLog Debug "Producer send succeeded"
           [("topic", LVal Fixtures.orders);
            ("key", LVal Fixtures.k1);
            ("partition", LVal (PyInt 0))];
     EvCallback "on_success" [ArgErr None]].
Proof. reflexivity. Qed.

(** On the success branch no observer is ever passed the message: every
    observer call made carries the single argument [None]. *)
Lemma success_observers_never_see_message (self : Producer) (msg : Message) (w : World) :
  Forall (fun ev => forall name args, ev = EvCallback name args -> args = [ArgErr None])
         (new_events (_on_delivery self None msg) w).
Proof.
  unfold new_events. rewrite _on_delivery_unfold.
  set (w1 := MkWorld _ _).
  assert (Hpre : exists n,
            trace (snd (for_each (fun cb => call cb (args_for None msg))
                                 (observers_for self None) w1)) =
              trace w1 ++ calls (args_for None msg) (take n (observers_for self None))).
  { destruct (fst (for_each (fun cb => call cb (args_for None msg))
                            (observers_for self None) w1)) as [[] | x] eqn:Hr.
    - exists (length (observers_for self None)). rewrite firstn_all.
      by apply for_each_call_return.
    - destruct (for_each_call_raise _ _ _ _ Hr) as (pre & cb & post & Hcbs & _ & Htr).
      exists (length (pre ++ [cb])). rewrite Htr, Hcbs.
      replace (pre ++ cb :: post) with ((pre ++ [cb]) ++ post)
        by (by rewrite <- app_assoc).
      by rewrite take_app_length. }
  destruct Hpre as [n ->]. subst w1. new_trace.
  constructor; [discriminate |].
  apply Forall_forall. intros ev Hin name args ->.
  unfold calls in Hin. apply list_elem_of_In, in_map_iff in Hin.
  destruct Hin as (cb & Heq & _). by inversion Heq.
Qed.




(** What [str] gives for the error of the fixtures. *)
Lemma str_timed_out :
  str Fixtures.timed_out =
    "KafkaError{code=_MSG_TIMED_OUT,val=-185,str=" +:+ double_quote +:+
    "Local: Message timed out" +:+ double_quote +:+ "}".
Proof. reflexivity. Qed.

(** C9 as stated fails: with error observers [first; second] where [first]
    raises, a failed delivery is logged, [first] is called with the message
    and the error, and [second], although registered, is never called. *)
Lemma failure_skips_observers_after_a_raise :
  let self := Fixtures.producer_with Fixtures.passthrough Fixtures.passthrough None
                (Some [Fixtures.raising "first"; Fixtures.returning "second"]) in
  new_events (_on_delivery self (Some Fixtures.timed_out) Fixtures.msg1) Fixtures.w0 =
    [EvLog Warning "Producer send failed"
           [("error_message", LVal (PyStr (str Fixtures.timed_out)));
            ("topic", LVal Fixtures.orders);
            ("key", LVal Fixtures.k1);
            ("partition", LVal (PyInt 0))];
     EvCallback "first" [ArgMsg Fixtures.msg1; ArgErr (Some Fixtures.timed_out)]] /\
  calls [ArgMsg Fixtures.msg1; ArgErr (Some Fixtures.timed_out)]
        (registered (error_callbacks self)) =
    [EvCallback "first" [ArgMsg Fixtures.msg1; ArgErr (Some Fixtures.timed_out)];
     EvCallback "second" [ArgMsg Fixtures.msg1; ArgErr (Some Fixtures.timed_out)]].
Proof. split; reflexivity. Qed.

(** C9, amended.  On a failed delivery [_on_delivery] first logs at warning
    level the text of the error, the topic, the key and the partition, and
    then calls the registered error observers in registration order, each
    with the message and the error, up to and including the first observer
    that raises.  In full: when every observer returns in its turn,
    [_on_delivery] returns and every one of them has been called; when the
    observers before some observer return and that one raises,
    [_on_delivery] is left by its exception and the calls stop with it; and
    [_on_delivery] ends in no other way. *)
Theorem failure_logs_then_calls_error_observers_in_order :
  forall (self : Producer) (e : KafkaError) (msg : Message) (w : World),
    let cbs := registered (error_callbacks self) in
    let args := [ArgMsg msg; ArgErr (Some e)] in
    let warning :=
      EvLog Warning "Producer send failed"
            [("error_message", LVal (PyStr (str e)));
             ("topic", LVal (topic msg));
             ("key", LVal (key msg));
             ("partition", LVal (partition msg))] in
    let h := trace w ++ [warning] in
    let evs := new_events (_on_delivery self (Some e) msg) w in
    let outcome := result (_on_delivery self (Some e) msg) w in
    (returns_in_turn args h cbs ->
       outcome = Return tt /\ evs = warning :: calls args cbs) /\
    (forall pre cb post x,
       cbs = pre ++ cb :: post ->
       returns_in_turn args h pre ->
       obs_call cb (h ++ calls args pre) args = Some x ->
       outcome = Raise x /\ evs = warning :: calls args (pre ++ [cb])) /\
    (outcome = Return tt -> returns_in_turn args h cbs) /\
    (forall x,
       outcome = Raise x ->
       exists pre cb post,
         cbs = pre ++ cb :: post /\
         returns_in_turn args h pre /\
         obs_call cb (h ++ calls args pre) args = Some x).
Proof.
  intros self e msg w cbs args warning h evs outcome. subst evs outcome.
  unfold result, new_events. rewrite _on_delivery_unfold.
  change (observers_for self (Some e)) with cbs.
  change (args_for (Some e) msg) with args.
  change (delivery_log (Some e) msg) with warning.
  set (w1 := MkWorld (trace w ++ [warning]) (atexit_registry w)).
  change h with (trace w1).
  split; [| split; [| split]].
  - intros Hall. rewrite (for_each_call_all_return _ _ _ Hall).
    split; [reflexivity |]. subst w1. new_trace. reflexivity.
  - intros pre cb post x -> Hpre Hcb.
    rewrite (for_each_call_stops_at_first_raise _ _ _ _ _ _ Hpre Hcb).
    split; [reflexivity |]. subst w1. new_trace. reflexivity.
  - apply for_each_call_return_inv.
  - apply for_each_call_raise_inv.
Qed.

(** The theorem with error observers [first; second; third] where [second]
    raises, and with [first; second] that both return. *)
Lemma failure_logs_then_calls_error_observers_in_order_witness :
  let args := [ArgMsg Fixtures.msg1; ArgErr (Some Fixtures.timed_out)] in
  let warning := delivery_log (Some Fixtures.timed_out) Fixtures.msg1 in
  let stopped := Fixtures.producer_with Fixtures.passthrough Fixtures.passthrough None
                   (Some [Fixtures.returning "first"; Fixtures.raising "second";
                          Fixtures.returning "third"]) in
  let quiet := Fixtures.producer_with Fixtures.passthrough Fixtures.passthrough None
                 (Some [Fixtures.returning "first"; Fixtures.returning "second"]) in
  (result (_on_delivery stopped (Some Fixtures.timed_out) Fixtures.msg1) Fixtures.w0
     = Raise Fixtures.boom /\
   new_events (_on_delivery stopped (Some Fixtures.timed_out) Fixtures.msg1) Fixtures.w0
     = [warning; EvCallback "first" args; EvCallback "second" args]) /\
  (result (_on_delivery quiet (Some Fixtures.timed_out) Fixtures.msg1) Fixtures.w0
     = Return tt /\
   new_events (_on_delivery quiet (Some Fixtures.timed_out) Fixtures.msg1) Fixtures.w0
     = [warning; EvCallback "first" args; EvCallback "second" args]).
Proof.
  intros args warning stopped quiet. split.
  - refine (proj1 (proj2 (failure_logs_then_calls_error_observers_in_order
                            stopped Fixtures.timed_out Fixtures.msg1 Fixtures.w0))
                  [Fixtures.returning "first"] (Fixtures.raising "second")
                  [Fixtures.returning "third"] Fixtures.boom eq_refl _ eq_refl).
    intros pre cb post Heq.
    destruct pre as [| cb0 [| cb1 pre]]; [| discriminate Heq..].
    by injection Heq as <- _.
  - refine (proj1 (failure_logs_then_calls_error_observers_in_order
                     quiet Fixtures.timed_out Fixtures.msg1 Fixtures.w0) _).
    intros pre cb post Heq.
    destruct pre as [| cb0 [| cb1 [| cb2 pre]]]; [| | discriminate Heq..].
    + by injection Heq as <- _.
    + by injection Heq as _ <- _.
Defined.

(** ** [__init__] and the configuration *)

(** Looking up a literal key under a stack of inserts of literal keys. *)
Ltac lookup_literal :=
  repeat (rewrite lookup_insert_ne by discriminate); rewrite ?lookup_insert_eq.

Section Construction.

Variable hostname : string.

(** The calls of [__init__], whether or not the client's constructor
    raises: the log line, the registration of [_close], the
    construction of the client with the effective configuration. *)
Lemma init_trace (cimpl : ConfluentProducer) (config : Config)
    (vs ks : Serializer) (scb ecb : option (list Observer)) (w : World) :
  new_events (__init__ hostname cimpl config vs ks scb ecb) w =
    [EvLog Info "Initializing producer"
           [("config", LConfig (effective_config hostname config))];
     EvAtexitRegister M_close;
     EvImplInit (effective_config hostname config)].
Proof.
  unfold new_events, __init__, _init_producer_impl, atexit_register. step_monad.
  destruct (impl_new cimpl _ _); new_trace; reflexivity.
Qed.

(** A producer that [__init__] returns holds a handle constructed with
    the effective configuration, and the arguments as attributes. *)
Lemma init_returns (cimpl : ConfluentProducer) (config : Config)
    (vs ks : Serializer) (scb ecb : option (list Observer)) (w : World)
    (self : Producer) :
  result (__init__ hostname cimpl config vs ks scb ecb) w = Return self ->
  self = MkProducer vs ks scb ecb (MkHandle cimpl (effective_config hostname config)).
Proof.
  unfold __init__, _init_producer_impl, atexit_register. step_monad.
  destruct (impl_new cimpl _ _); simpl; congruence.
Qed.

Lemma init_registry (cimpl : ConfluentProducer) (config : Config)
    (vs ks : Serializer) (scb ecb : option (list Observer)) (w : World) :
  atexit_registry (snd (__init__ hostname cimpl config vs ks scb ecb w)) =
    M_close :: atexit_registry w.
Proof.
  unfold __init__, _init_producer_impl, atexit_register. step_monad.
  destruct (impl_new cimpl _ _); reflexivity.
Qed.

(** C3.  Whatever mapping the caller passes, the configuration the client
    is constructed with binds the delivery, error and throttle callback
    keys to the producer's own [_on_delivery], [_on_error] and
    [_on_throttle]: the assignments come after the merge and replace any
    value of the caller.  So a delivery report of the client runs the
    producer's [_on_delivery]. *)
Theorem callback_slots_are_bound_to_own_handlers :
  forall (config : Config),
    effective_config hostname config !! "on_delivery" = Some (CfgBound M_on_delivery) /\
    effective_config hostname config !! "error_cb" = Some (CfgBound M_on_error) /\
    effective_config hostname config !! "throttle_cb" = Some (CfgBound M_on_throttle) /\
    forall (cimpl : ConfluentProducer) (vs ks : Serializer)
           (scb ecb : option (list Observer)) (w : World),
      EvImplInit (effective_config hostname config)
        ∈ new_events (__init__ hostname cimpl config vs ks scb ecb) w /\
      forall self,
        result (__init__ hostname cimpl config vs ks scb ecb) w = Return self ->
        forall err msg w', deliver self err msg w' = _on_delivery self err msg w'.
Proof.
  intros config. unfold effective_config. cbn zeta.
  repeat split.
  - by lookup_literal.
  - by lookup_literal.
  - by lookup_literal.
  - rewrite init_trace. set_solver.
  - intros self Hself err msg w'. apply init_returns in Hself. subst self.
    unfold deliver, effective_config. cbn [_producer_impl handle_config].
    by lookup_literal.
Qed.

(** C5, amended.  The configuration the client is constructed with agrees,
    on every key other than the four callback keys that [__init__]
    assigns, with the defaults updated by the caller's mapping: the
    caller's value where the caller has one, the default otherwise.  The
    defaults are [acks = all], one request in flight, the host name as
    client id, a buffering window of 100 ms and statistics every
    15000 ms. *)
Theorem config_is_defaults_overridden_by_caller :
  forall (config : Config) (k : string),
    k ∉ callback_keys ->
    effective_config hostname config !! k = (config ∪ DEFAULT_CONFIG hostname) !! k /\
    (forall v, config !! k = Some v -> effective_config hostname config !! k = Some v) /\
    (config !! k = None ->
       effective_config hostname config !! k = DEFAULT_CONFIG hostname !! k) /\
    (forall cimpl vs ks scb ecb w,
       EvImplInit (effective_config hostname config)
         ∈ new_events (__init__ hostname cimpl config vs ks scb ecb) w) /\
    DEFAULT_CONFIG hostname !! "acks" = Some (CfgPy (PyStr "all")) /\
    DEFAULT_CONFIG hostname !! "max.in.flight" = Some (CfgPy (PyInt 1)) /\
    DEFAULT_CONFIG hostname !! "client.id" = Some (CfgPy (PyStr hostname)) /\
    DEFAULT_CONFIG hostname !! "queue.buffering.max.ms" = Some (CfgPy (PyInt 100)) /\
    DEFAULT_CONFIG hostname !! "statistics.interval.ms" = Some (CfgPy (PyInt 15000)).
Proof.
  intros config k Hk. unfold callback_keys in Hk.
  repeat (apply not_elem_of_cons in Hk as [? Hk]).
  assert (Heff : effective_config hostname config !! k
                 = (config ∪ DEFAULT_CONFIG hostname) !! k).
  { unfold effective_config. cbn zeta. by rewrite !lookup_insert_ne by done. }
  split; [exact Heff |]. rewrite Heff.
  split; [| split; [| split]].
  - intros v Hv. by apply lookup_union_Some_l.
  - intros Hnone. by apply lookup_union_r.
  - intros. rewrite init_trace. set_solver.
  - unfold DEFAULT_CONFIG. repeat split.
    all: by lookup_literal.
Qed.

End Construction.

(** The theorem of C3 at a caller's mapping that tries to take the delivery
    callback: the producer built from it still dispatches to its own
    [_on_delivery]. *)
Lemma callback_slots_are_bound_to_own_handlers_witness :
  let config : Config := {["on_delivery" := CfgPy (PyObj 7 true)]} in
  let self :=
    MkProducer Fixtures.passthrough Fixtures.passthrough None None
               (MkHandle Fixtures.quiet_client (effective_config "host" config)) in
  effective_config "host" config !! "on_delivery" = Some (CfgBound M_on_delivery) /\
  result (__init__ "host" Fixtures.quiet_client config
                   Fixtures.passthrough Fixtures.passthrough None None)
         Fixtures.w0 = Return self /\
  forall err msg w', deliver self err msg w' = _on_delivery self err msg w'.
Proof.
  intros config self.
  destruct (callback_slots_are_bound_to_own_handlers "host" config)
    as (Hdelivery & _ & _ & Hinit).
  split; [exact Hdelivery |].
  split; [reflexivity |].
  exact (proj2 (Hinit Fixtures.quiet_client Fixtures.passthrough Fixtures.passthrough
                      None None Fixtures.w0) self eq_refl).
Defined.

(** C5 as stated fails at the statistics callback: the key is not
    one of the three reserved ones, neither the defaults nor the (empty)
    caller's mapping has it, and the configuration the client receives
    binds it to the producer's [_on_stats]. *)
Lemma stats_callback_is_outside_the_merge :
  ("stats_cb" ∉ reserved_keys) /\
  ((∅ : Config) ∪ DEFAULT_CONFIG "host") !! "stats_cb" = None /\
  effective_config "host" ∅ !! "stats_cb" = Some (CfgBound M_on_stats).
Proof.
  split; [| split].
  - unfold reserved_keys. rewrite !not_elem_of_cons.
    repeat split; try discriminate. apply not_elem_of_nil.
  - reflexivity.
  - reflexivity.
Qed.

(** The theorem of C5 at a caller's mapping that overrides [acks] and adds
    the broker list. *)
Lemma config_is_defaults_overridden_by_caller_witness :
  let config : Config :=
    <["acks" := CfgPy (PyInt 1)]>
      {["bootstrap.servers" := CfgPy (PyStr "localhost:29092")]} in
  effective_config "host" config !! "acks" = Some (CfgPy (PyInt 1)) /\
  effective_config "host" config !! "max.in.flight"
    = DEFAULT_CONFIG "host" !! "max.in.flight".
Proof.
  intros config. split.
  - assert (Hk : "acks" ∉ callback_keys).
    { unfold callback_keys. rewrite !not_elem_of_cons.
      repeat split; try discriminate. apply not_elem_of_nil. }
    exact (proj1 (proj2 (config_is_defaults_overridden_by_caller "host" config "acks" Hk))
                 (CfgPy (PyInt 1)) eq_refl).
  - assert (Hk : "max.in.flight" ∉ callback_keys).
    { unfold callback_keys. rewrite !not_elem_of_cons.
      repeat split; try discriminate. apply not_elem_of_nil. }
    exact (proj1 (proj2 (proj2
             (config_is_defaults_overridden_by_caller "host" config "max.in.flight" Hk)))
                 eq_refl).
Defined.

(** ** Process exit *)

(** C8.  [__init__] registers [_close] with [atexit] before it constructs
    the client, hence before a producer exists to send with.  Running the
    registered function logs and calls the client's flush without a
    timeout, whatever the state of the producer; and at exit of a process
    in which the producer was constructed that is what happens. *)
Theorem exit_hook_is_registered_at_construction_and_flushes :
  forall (hostname : string) (cimpl : ConfluentProducer) (config : Config)
         (vs ks : Serializer) (scb ecb : option (list Observer)) (w : World),
    let init := __init__ hostname cimpl config vs ks scb ecb in
    new_events init w =
      [EvLog Info "Initializing producer"
             [("config", LConfig (effective_config hostname config))];
       EvAtexitRegister M_close;
       EvImplInit (effective_config hostname config)] /\
    atexit_registry (snd (init w)) = M_close :: atexit_registry w /\
    (forall self w1,
       new_events (run_exit_function self M_close) w1 =
         [EvLog Info "Flushing producer" []; EvImplFlush None]) /\
    (forall self,
       result init w = Return self ->
       atexit_registry w = [] ->
       new_events (process_exit self) (snd (init w)) =
         [EvLog Info "Flushing producer" []; EvImplFlush None]).
Proof.
  intros hostname cimpl config vs ks scb ecb w init. subst init.
  split; [apply init_trace |].
  split; [apply init_registry |].
  assert (Hclose : forall self w1,
            new_events (run_exit_function self M_close) w1 =
              [EvLog Info "Flushing producer" []; EvImplFlush None]).
  { intros self w1. apply new_events_app. apply (flush_trace self PyNone w1). }
  split; [exact Hclose |].
  intros self _ Hempty.
  pose proof (init_registry hostname cimpl config vs ks scb ecb w) as Hreg.
  rewrite Hempty in Hreg.
  unfold new_events, process_exit. rewrite Hreg. cbn [run_exitfuncs].
  destruct (run_exit_function self M_close _) as [o w2] eqn:Hrun.
  unfold ret. cbn [snd].
  specialize (Hclose self (snd (__init__ hostname cimpl config vs ks scb ecb w))).
  unfold new_events in Hclose. by rewrite Hrun in Hclose.
Qed.

(** The theorem at a producer built with the defaults only. *)
Lemma exit_hook_is_registered_at_construction_and_flushes_witness :
  let init := __init__ "host" Fixtures.quiet_client ∅
                       Fixtures.passthrough Fixtures.passthrough None None in
  let self :=
    MkProducer Fixtures.passthrough Fixtures.passthrough None None
               (MkHandle Fixtures.quiet_client (effective_config "host" ∅)) in
  result init Fixtures.w0 = Return self /\
  atexit_registry (snd (init Fixtures.w0)) = [M_close] /\
  new_events (process_exit self) (snd (init Fixtures.w0)) =
    [EvLog Info "Flushing producer" []; EvImplFlush None].
Proof.
  intros init self.
  destruct (exit_hook_is_registered_at_construction_and_flushes
              "host" Fixtures.quiet_client ∅ Fixtures.passthrough Fixtures.passthrough
              None None Fixtures.w0) as (_ & Hreg & _ & Hexit).
  split; [reflexivity |].
  split; [exact Hreg |].
  exact (Hexit self eq_refl eq_refl).
Defined.

(** ** The success branch of [_on_delivery] *)

(** C2 as stated fails: with success observers [first; second]
    where [first] raises, a successful delivery is logged, [first] is
    called, and [second] is never called.  (What [first] is passed is
    [None].) *)
Lemma success_skips_observers_after_a_raise :
  let self := Fixtures.producer_with Fixtures.passthrough Fixtures.passthrough
                (Some [Fixtures.raising "first"; Fixtures.returning "second"]) None in
  new_events (_on_delivery self None Fixtures.msg1) Fixtures.w0 =
    [EvLog Debug "Producer send succeeded"
           [("topic", LVal Fixtures.orders);
            ("key", LVal Fixtures.k1);
            ("partition", LVal (PyInt 0))];
     EvCallback "first" [ArgErr None]] /\
  map obs_name (registered (success_callbacks self)) = ["first"; "second"].
Proof. split; reflexivity. Qed.

(** C2, amended.  On a successful delivery [_on_delivery] first logs at
    debug level the topic, the key and the partition, and then calls the
    registered success observers, one call each, in registration order and
    all with the same arguments, up to and including the first observer
    that raises.  In full: when every observer returns in its turn,
    [_on_delivery] returns and every one of them has been called exactly
    once; when the observers before some observer return and that one
    raises, [_on_delivery] is left by its exception and the calls stop with
    it; and [_on_delivery] ends in no other way.  (What the arguments are
    is left open here.) *)
Theorem success_logs_then_calls_success_observers_in_order :
  forall (self : Producer) (msg : Message) (w : World),
    let cbs := registered (success_callbacks self) in
    let debug :=
      EvLog Debug "Producer send succeeded"
            [("topic", LVal (topic msg));
             ("key", LVal (key msg));
             ("partition", LVal (partition msg))] in
    let h := trace w ++ [debug] in
    let evs := new_events (_on_delivery self None msg) w in
    let outcome := result (_on_delivery self None msg) w in
    exists args : list CbArg,
      (returns_in_turn args h cbs ->
         outcome = Return tt /\ evs = debug :: calls args cbs) /\
      (forall pre cb post x,
         cbs = pre ++ cb :: post ->
         returns_in_turn args h pre ->
         obs_call cb (h ++ calls args pre) args = Some x ->
         outcome = Raise x /\ evs = debug :: calls args (pre ++ [cb])) /\
      (outcome = Return tt -> returns_in_turn args h cbs) /\
      (forall x,
         outcome = Raise x ->
         exists pre cb post,
           cbs = pre ++ cb :: post /\
           returns_in_turn args h pre /\
           obs_call cb (h ++ calls args pre) args = Some x).
Proof.
  intros self msg w cbs debug h evs outcome. subst evs outcome.
  exists (args_for None msg).
  unfold result, new_events. rewrite _on_delivery_unfold.
  change (observers_for self None) with cbs.
  change (delivery_log None msg) with debug.
  set (w1 := MkWorld (trace w ++ [debug]) (atexit_registry w)).
  change h with (trace w1).
  split; [| split; [| split]].
  - intros Hall. rewrite (for_each_call_all_return _ _ _ Hall).
    split; [reflexivity |]. subst w1. new_trace. reflexivity.
  - intros pre cb post x -> Hpre Hcb.
    rewrite (for_each_call_stops_at_first_raise _ _ _ _ _ _ Hpre Hcb).
    split; [reflexivity |]. subst w1. new_trace. reflexivity.
  - apply for_each_call_return_inv.
  - apply for_each_call_raise_inv.
Qed.

(** The theorem with success observers [first; second; third] where
    [second] raises (on whatever it is passed), and with [first; second]
    that both return. *)
Lemma success_logs_then_calls_success_observers_in_order_witness :
  let debug := delivery_log None Fixtures.msg1 in
  let stopped := Fixtures.producer_with Fixtures.passthrough Fixtures.passthrough
                   (Some [Fixtures.returning "first"; Fixtures.raising "second";
                          Fixtures.returning "third"]) None in
  let quiet := Fixtures.producer_with Fixtures.passthrough Fixtures.passthrough
                 (Some [Fixtures.returning "first"; Fixtures.returning "second"]) None in
  (exists args,
     result (_on_delivery stopped None Fixtures.msg1) Fixtures.w0 = Raise Fixtures.boom /\
     new_events (_on_delivery stopped None Fixtures.msg1) Fixtures.w0
       = [debug; EvCallback "first" args; EvCallback "second" args]) /\
  (exists args,
     result (_on_delivery quiet None Fixtures.msg1) Fixtures.w0 = Return tt /\
     new_events (_on_delivery quiet None Fixtures.msg1) Fixtures.w0
       = [debug; EvCallback "first" args; EvCallback "second" args]).
Proof.
  intros debug stopped quiet. split.
  - destruct (success_logs_then_calls_success_observers_in_order
                stopped Fixtures.msg1 Fixtures.w0) as (args & _ & Hstop & _).
    exists args.
    refine (Hstop [Fixtures.returning "first"] (Fixtures.raising "second")
                  [Fixtures.returning "third"] Fixtures.boom eq_refl _ eq_refl).
    intros pre cb post Heq.
    destruct pre as [| cb0 [| cb1 pre]]; [| discriminate Heq..].
    by injection Heq as <- _.
  - destruct (success_logs_then_calls_success_observers_in_order
                quiet Fixtures.msg1 Fixtures.w0) as (args & Hall & _).
    exists args. apply Hall.
    intros pre cb post Heq.
    destruct pre as [| cb0 [| cb1 [| cb2 pre]]]; [| | discriminate Heq..].
    + by injection Heq as <- _.
    + by injection Heq as _ <- _.
Defined.

(** * Further properties of the module *)

(** ** [poll] and [flush] *)

(** X1.  [poll] makes exactly one call, the client's [poll], and never with
    a falsy timeout: a truthy timeout is passed on, every falsy one ([None],
    [0], [0.0], [False]) is replaced by [1], so a zero-wait poll cannot be
    asked for.  The call ends the way the client's [poll] ends, with its
    value or its exception. *)
Theorem poll_never_passes_a_falsy_timeout :
  forall (self : Producer) (timeout : PyVal) (w : World),
    let passed := if truthy timeout then timeout else PyInt 1 in
    new_events (poll self timeout) w = [EvImplPoll passed] /\
    truthy passed = true /\
    result (poll self timeout) w =
      impl_poll (handle_impl (_producer_impl self)) (trace w) passed /\
    new_events (poll self (PyInt 0)) w = [EvImplPoll (PyInt 1)].
Proof.
  intros self timeout w passed. subst passed.
  repeat split.
  - unfold poll, py_or. step_monad. new_trace. reflexivity.
  - by destruct (truthy timeout) eqn:Ht.
  - unfold poll, py_or. step_monad. new_trace. reflexivity.
Qed.

(** X2.  [flush] ends the way the client's flush ends, except that the
    value the client returns (the number of messages still queued) is
    dropped: whenever the client's flush returns, [flush] returns [None],
    and whenever it raises, [flush] raises the same exception. *)
Theorem flush_outcome_follows_the_client :
  forall (self : Producer) (timeout : PyVal) (w : World),
    let passed := if truthy timeout then Some timeout else None in
    let answer :=
      impl_flush (handle_impl (_producer_impl self))
                 (trace w ++ [EvLog Info "Flushing producer" []]) passed in
    (forall remaining, answer = Return remaining ->
       result (flush self timeout) w = Return tt) /\
    (forall e, answer = Raise e -> result (flush self timeout) w = Raise e).
Proof.
  intros self timeout w passed answer. subst passed answer.
  unfold flush. step_monad.
  split.
  - intros remaining H. destruct (truthy timeout); step_monad; by rewrite H.
  - intros e H. destruct (truthy timeout); step_monad; by rewrite H.
Qed.

(** A client whose flush times out with three messages left, and one whose
    flush raises. *)
Lemma flush_outcome_follows_the_client_witness :
  let slow := MkConfluentProducer (fun _ _ => None) (fun _ _ _ _ => None)
                                  (fun _ _ => Return (PyInt 3))
                                  (fun _ _ => Return (PyInt 0)) in
  let broken := MkConfluentProducer (fun _ _ => None) (fun _ _ _ _ => None)
                                    (fun _ _ => Raise Fixtures.boom)
                                    (fun _ _ => Return (PyInt 0)) in
  let on c := MkProducer Fixtures.passthrough Fixtures.passthrough None None
                         (MkHandle c ∅) in
  result (flush (on slow) (PyInt 5)) Fixtures.w0 = Return tt /\
  result (flush (on broken) PyNone) Fixtures.w0 = Raise Fixtures.boom.
Proof.
  intros slow broken on. split.
  - exact (proj1 (flush_outcome_follows_the_client (on slow) (PyInt 5) Fixtures.w0)
                 (PyInt 3) eq_refl).
  - exact (proj2 (flush_outcome_follows_the_client (on broken) PyNone Fixtures.w0)
                 Fixtures.boom eq_refl).
Defined.

(** ** [_on_delivery] without observers *)

(** X3.  With no observers for the branch taken ([None], the default, or an
    empty list), [_on_delivery] writes its log line, calls nothing else and
    returns: a producer built without callbacks never raises into the
    client from a delivery report. *)
Theorem delivery_without_observers_only_logs :
  forall (self : Producer) (err : option KafkaError) (msg : Message) (w : World),
    callbacks_truthy (match err with
                      | Some _ => error_callbacks self
                      | None => success_callbacks self
                      end) = false ->
    result (_on_delivery self err msg) w = Return tt /\
    new_events (_on_delivery self err msg) w = [delivery_log err msg].
Proof.
  intros self err msg w Hnone.
  unfold result, new_events, _on_delivery.
  destruct err as [e |]; rewrite Hnone; step_monad; new_trace; by split.
Qed.

(** The theorem at a failed delivery with an empty list of error observers
    (and a success observer that would raise). *)
Lemma delivery_without_observers_only_logs_witness :
  let self := Fixtures.producer_with Fixtures.passthrough Fixtures.passthrough
                (Some [Fixtures.raising "s"]) (Some []) in
  result (_on_delivery self (Some Fixtures.timed_out) Fixtures.msg1) Fixtures.w0
    = Return tt /\
  new_events (_on_delivery self (Some Fixtures.timed_out) Fixtures.msg1) Fixtures.w0
    = [delivery_log (Some Fixtures.timed_out) Fixtures.msg1].
Proof.
  intros self.
  exact (delivery_without_observers_only_logs
           self (Some Fixtures.timed_out) Fixtures.msg1 Fixtures.w0 eq_refl).
Defined.

(** ** More on [produce] *)

(** X4.  One call of [produce] calls the key serializer exactly once, the
    value serializer at most once and never for [None], the client's
    [produce] at most once and the client's flush at most once and never for
    a falsy [sync]: nothing is retried. *)
Theorem produce_makes_each_call_at_most_once :
  forall (self : Producer) (topic key value sync : PyVal) (w : World),
    let evs := new_events (produce self topic key value sync) w in
    length (List.filter is_key_serialize evs) = 1%nat /\
    (length (List.filter is_value_serialize evs) <= (if is_not_None value then 1 else 0))%nat /\
    (length (List.filter is_enqueue evs) <= 1)%nat /\
    (length (List.filter is_flush evs) <= (if truthy sync then 1 else 0))%nat.
Proof.
  intros self topic key value sync w evs. subst evs.
  repeat split; run_produce; simpl; lia.
Qed.



Ltac refute_exists H :=
  repeat (apply Exists_cons in H as [H | H]; [discriminate |]);
  by apply Exists_nil in H.

(** X6.  Whenever [produce] reaches the flush, the client has accepted the
    message just before (the enqueue, the log line of [flush] and the flush
    without a timeout are the last three calls), and [produce] returns or
    raises exactly as the client's flush does: a failure of the flush leaves
    [produce] by an exception although the message is enqueued. *)
Theorem sync_produce_ends_as_the_flush_ends :
  forall (self : Producer) (topic key value sync : PyVal) (w : World),
    let client := handle_impl (_producer_impl self) in
    let evs := new_events (produce self topic key value sync) w in
    Exists (fun ev => is_flush ev = true) evs ->
    exists pre t v k,
      evs = pre ++ [EvImplProduce t v k;
                    EvLog Info "Flushing producer" [];
                    EvImplFlush None] /\
      impl_produce client (trace w ++ pre) t v k = None /\
      match impl_flush client
                       (trace w ++ pre ++ [EvImplProduce t v k;
                                           EvLog Info "Flushing producer" []])
                       None with
      | Return _ => result (produce self topic key value sync) w = Return tt
      | Raise e => result (produce self topic key value sync) w = Raise e
      end.
Proof.
  intros self topic key value sync w client evs Hflush. subst client evs.
  revert Hflush. run_produce; intros Hflush; try refute_exists Hflush.
  all: rewrite <- ?app_assoc in *; simpl in *.
  all: first
         [ eexists [_; _], _, _, _; (split; [reflexivity |]); simpl;
           (split; [eassumption |]);
           match goal with H : impl_flush _ _ _ = _ |- _ => by rewrite H end
         | eexists [_], _, _, _; (split; [reflexivity |]); simpl;
           (split; [eassumption |]);
           match goal with H : impl_flush _ _ _ = _ |- _ => by rewrite H end ].
Qed.

(** The theorem at a client that accepts the message and whose flush
    raises. *)
Lemma sync_produce_ends_as_the_flush_ends_witness :
  let broken := MkConfluentProducer (fun _ _ => None) (fun _ _ _ _ => None)
                                    (fun _ _ => Raise Fixtures.boom)
                                    (fun _ _ => Return (PyInt 0)) in
  let self := MkProducer Fixtures.passthrough Fixtures.passthrough None None
                         (MkHandle broken ∅) in
  exists pre t v k,
    new_events (produce self Fixtures.orders Fixtures.k1 Fixtures.v1 (PyBool true))
               Fixtures.w0 =
      pre ++ [EvImplProduce t v k; EvLog Info "Flushing producer" []; EvImplFlush None] /\
    result (produce self Fixtures.orders Fixtures.k1 Fixtures.v1 (PyBool true)) Fixtures.w0
      = Raise Fixtures.boom.
Proof.
  intros broken self.
  destruct (sync_produce_ends_as_the_flush_ends
              self Fixtures.orders Fixtures.k1 Fixtures.v1 (PyBool true) Fixtures.w0)
    as (pre & t & v & k & Hevs & _ & Hend).
  - vm_compute. do 4 apply Exists_cons_tl. by apply Exists_cons_hd.
  - exists pre, t, v, k. split; [exact Hevs |]. exact Hend.
Defined.

(** ** More on the configuration *)

Lemma elem_of_callback_keys (k : string) :
  k ∈ callback_keys <->
  k = "on_delivery" \/ k = "error_cb" \/ k = "throttle_cb" \/ k = "stats_cb".
Proof. unfold callback_keys. rewrite !elem_of_cons, elem_of_nil. tauto. Qed.

(** X7.  What the caller puts under the four callback keys has no effect
    at all: two mappings that agree on every other key give the same
    configuration, in which the statistics callback too is the producer's
    own [_on_stats]. *)
Theorem caller_values_under_callback_keys_are_ignored :
  forall (hostname : string) (config1 config2 : Config),
    (forall k, k ∉ callback_keys -> config1 !! k = config2 !! k) ->
    effective_config hostname config1 = effective_config hostname config2 /\
    effective_config hostname config1 !! "stats_cb" = Some (CfgBound M_on_stats).
Proof.
  intros hostname config1 config2 Hagree. split.
  - apply map_eq. intros k. unfold effective_config. cbn zeta.
    destruct (decide (k ∈ callback_keys)) as [Hin | Hout].
    + apply elem_of_callback_keys in Hin as [-> | [-> | [-> | ->]]];
        lookup_literal; by lookup_literal.
    + pose proof Hout as Hne. rewrite elem_of_callback_keys in Hne.
      rewrite !lookup_insert_ne by (intros <-; apply Hne; auto).
      rewrite !lookup_union. by rewrite (Hagree k Hout).
  - unfold effective_config. cbn zeta. by lookup_literal.
Qed.

(** The theorem at a mapping with a callable under [stats_cb] and one
    without. *)
Lemma caller_values_under_callback_keys_are_ignored_witness :
  let with_cb : Config :=
    <["stats_cb" := CfgPy (PyObj 9 true)]>
      {["bootstrap.servers" := CfgPy (PyStr "localhost:29092")]} in
  let without : Config :=
    {["bootstrap.servers" := CfgPy (PyStr "localhost:29092")]} in
  effective_config "host" with_cb = effective_config "host" without.
Proof.
  intros with_cb without.
  refine (proj1 (caller_values_under_callback_keys_are_ignored "host" with_cb without _)).
  intros k Hk. subst with_cb without.
  apply lookup_insert_ne. intros <-. apply Hk, elem_of_callback_keys. auto.
Defined.

(** X8.  The configuration handed to the client has a value under exactly
    the caller's keys, the seven default keys and the four callback keys:
    no key of the caller is dropped and every default is present unless the
    caller replaced it. *)
Theorem effective_config_keys :
  forall (hostname : string) (config : Config) (k : string),
    is_Some (effective_config hostname config !! k) <->
    is_Some (config !! k) \/
    k ∈ ["acks"; "api.version.request"; "client.id"; "log.connection.close";
         "max.in.flight"; "queue.buffering.max.ms"; "statistics.interval.ms"] \/
    k ∈ callback_keys.
Proof.
  intros hostname config k.
  rewrite <- !elem_of_dom. unfold effective_config, DEFAULT_CONFIG, callback_keys.
  cbn zeta. rewrite !dom_insert, dom_union, !dom_insert, dom_empty.
  rewrite !elem_of_union, !elem_of_singleton, !elem_of_cons, elem_of_nil.
  pose proof (not_elem_of_empty (C := gset string) k). tauto.
Qed.

(** ** Construction that fails *)

(** X9.  When the client's constructor raises, [__init__] raises the same
    exception and no producer comes into being; by then the line
    "Initializing producer" is logged and [_close] is registered with
    [atexit], and stays registered. *)
Theorem failed_construction_leaves_the_exit_function_registered :
  forall (hostname : string) (cimpl : ConfluentProducer) (config : Config)
         (vs ks : Serializer) (scb ecb : option (list Observer)) (w : World)
         (e : PyExc),
    let cfg := effective_config hostname config in
    impl_new cimpl
             (trace w ++ [EvLog Info "Initializing producer" [("config", LConfig cfg)];
                          EvAtexitRegister M_close])
             cfg = Some e ->
    result (__init__ hostname cimpl config vs ks scb ecb) w = Raise e /\
    atexit_registry (snd (__init__ hostname cimpl config vs ks scb ecb w)) =
      M_close :: atexit_registry w /\
    new_events (__init__ hostname cimpl config vs ks scb ecb) w =
      [EvLog Info "Initializing producer" [("config", LConfig cfg)];
       EvAtexitRegister M_close;
       EvImplInit cfg].
Proof.
  intros hostname cimpl config vs ks scb ecb w e cfg Hnew. subst cfg.
  split; [| split].
  - unfold __init__, _init_producer_impl, atexit_register. step_monad.
    rewrite <- app_assoc. simpl. by rewrite Hnew.
  - apply init_registry.
  - apply init_trace.
Qed.

(** The theorem at a client whose constructor rejects every
    configuration. *)
Lemma failed_construction_leaves_the_exit_function_registered_witness :
  let invalid := MkExc "KafkaException" "No bootstrap.servers configured" in
  let unusable := MkConfluentProducer (fun _ _ => Some invalid) (fun _ _ _ _ => None)
                                      (fun _ _ => Return (PyInt 0))
                                      (fun _ _ => Return (PyInt 0)) in
  let init := __init__ "host" unusable ∅ Fixtures.passthrough Fixtures.passthrough
                       None None in
  result init Fixtures.w0 = Raise invalid /\
  atexit_registry (snd (init Fixtures.w0)) = [M_close].
Proof.
  intros invalid unusable init.
  destruct (failed_construction_leaves_the_exit_function_registered
              "host" unusable ∅ Fixtures.passthrough Fixtures.passthrough None None
              Fixtures.w0 invalid eq_refl) as (Hraise & Hreg & _).
  split; [exact Hraise | exact Hreg].
Defined.

(** ** What the calls on a producer leave alone *)

Lemma for_each_call_registry (args : list CbArg) (cbs : list Observer) (w : World) :
  atexit_registry (snd (for_each (fun cb => call cb args) cbs w)) = atexit_registry w.
Proof.
  revert w. induction cbs as [| cb cbs IH]; intros w; simpl; [done |].
  unfold bind. rewrite call_run.
  destruct (obs_call cb (trace w) args); simpl; [done |].
  by rewrite IH.
Qed.

Lemma do_call_registry (self : Producer) (c : Call) (w : World) :
  atexit_registry (snd (do_call self c w)) = atexit_registry w.
Proof.
  destruct c as [topic key value sync | timeout | timeout | err msg | error | event];
    cbn [do_call].
  - run_produce; reflexivity.
  - unfold flush. step_monad. repeat (break_match; step_monad); reflexivity.
  - unfold poll. step_monad. by destruct (impl_poll _ _ _).
  - rewrite _on_delivery_unfold. by rewrite for_each_call_registry.
  - reflexivity.
  - reflexivity.
Qed.

Lemma session_registry (self : Producer) (cs : list Call) (w : World) :
  atexit_registry (snd (session self cs w)) = atexit_registry w.
Proof.
  revert w. induction cs as [| c cs IH]; intros w; [done |].
  cbn [session]. pose proof (do_call_registry self c w) as Hc.
  destruct (do_call self c w) as [o w']. simpl in Hc. by rewrite IH.
Qed.

(** X10.  No call on a constructed producer touches the [atexit] registry:
    whatever [produce], [flush], [poll] and the callbacks [_on_delivery],
    [_on_error], [_on_throttle] are called with, in whatever order and
    whether or not they raise, the registered exit functions are the same
    afterwards.  Only [__init__] registers one. *)
Theorem calls_leave_the_exit_registry_alone :
  forall (self : Producer) (cs : list Call) (w : World),
    atexit_registry (snd (session self cs w)) = atexit_registry w.
Proof. intros self cs w. apply session_registry. Qed.

(** X11.  After a producer has been constructed in a process with no other
    exit function, and whatever calls have been made on it since, process
    exit logs "Flushing producer" once and calls the client's flush once,
    without a timeout, and nothing else. *)
Theorem exit_flushes_once_after_any_session :
  forall (hostname : string) (cimpl : ConfluentProducer) (config : Config)
         (vs ks : Serializer) (scb ecb : option (list Observer)) (w : World)
         (self : Producer) (cs : list Call),
    atexit_registry w = [] ->
    result (__init__ hostname cimpl config vs ks scb ecb) w = Return self ->
    new_events (process_exit self)
               (snd (session self cs (snd (__init__ hostname cimpl config vs ks scb ecb w)))) =
      [EvLog Info "Flushing producer" []; EvImplFlush None].
Proof.
  intros hostname cimpl config vs ks scb ecb w self cs Hempty _.
  set (w1 := snd (session self cs _)).
  assert (Hreg : atexit_registry w1 = [M_close]).
  { subst w1. rewrite session_registry, init_registry.
    by rewrite Hempty. }
  unfold new_events, process_exit. rewrite Hreg. cbn [run_exitfuncs run_exit_function].
  pose proof (flush_trace self PyNone w1) as Hflush. unfold _close.
  destruct (flush self PyNone w1) as [o w2]. simpl in *. rewrite Hflush.
  by rewrite drop_app_length.
Qed.

(** The theorem after a tombstone sent without [sync], a failed delivery
    report and a poll. *)
Lemma exit_flushes_once_after_any_session_witness :
  let init := __init__ "host" Fixtures.quiet_client ∅
                       Fixtures.passthrough Fixtures.passthrough None None in
  let self :=
    MkProducer Fixtures.passthrough Fixtures.passthrough None None
               (MkHandle Fixtures.quiet_client (effective_config "host" ∅)) in
  let cs := [CallProduce Fixtures.orders Fixtures.k1 PyNone (PyBool false);
             CallOnDelivery (Some Fixtures.timed_out) Fixtures.msg1;
             CallPoll PyNone] in
  new_events (process_exit self) (snd (session self cs (snd (init Fixtures.w0)))) =
    [EvLog Info "Flushing producer" []; EvImplFlush None].
Proof.
  intros init self cs.
  exact (exit_flushes_once_after_any_session
           "host" Fixtures.quiet_client ∅ Fixtures.passthrough Fixtures.passthrough
           None None Fixtures.w0 self cs eq_refl eq_refl).
Defined.

(** X12.  Observers are called from [_on_delivery] only: the code of
    [produce], [flush], [poll], [_on_error] and [_on_throttle] makes no
    observer call, so a broker-level error or a throttle event reaches the
    log but never the registered error observers. *)
Theorem only_delivery_reports_call_observers :
  forall (self : Producer) (c : Call) (w : World),
    (forall err msg, c <> CallOnDelivery err msg) ->
    Forall (fun ev => is_callback ev = false) (new_events (do_call self c) w).
Proof.
  intros self c w Hc.
  destruct c as [topic key value sync | timeout | timeout | err msg | error | event];
    cbn [do_call].
  - run_produce; repeat constructor.
  - unfold new_events, flush. step_monad.
    repeat (break_match; step_monad); new_trace; repeat constructor.
  - unfold new_events, poll. step_monad.
    destruct (impl_poll _ _ _); new_trace; repeat constructor.
  - by destruct (Hc err msg).
  - unfold new_events, _on_error. step_monad. new_trace. repeat constructor.
  - unfold new_events, _on_throttle. step_monad. new_trace. repeat constructor.
Qed.

(** The theorem at a broker-level error on a producer with an error
    observer. *)
Lemma only_delivery_reports_call_observers_witness :
  let self := Fixtures.producer_with Fixtures.passthrough Fixtures.passthrough None
                (Some [Fixtures.returning "on_error"]) in
  Forall (fun ev => is_callback ev = false)
         (new_events (do_call self (CallOnError Fixtures.timed_out)) Fixtures.w0).
Proof.
  intros self.
  apply (only_delivery_reports_call_observers self (CallOnError Fixtures.timed_out)
                                              Fixtures.w0).
  intros err msg. discriminate.
Defined.

(** ** The producer side of the system test *)

(** X13.  The fixture followed by the synchronous [produce] of the system
    test, with a client that accepts what it is given and serializers that
    return: the client is constructed with the broker list of the test next
    to the defaults, then the key is serialized, the value is serialized
    unless it is [None] (the tombstone test), the client receives the
    topic and the two results, and the flush without a timeout follows. *)
Theorem system_test_producer_side :
  forall (hostname : string) (cimpl : ConfluentProducer) (vs ks : Serializer)
         (TEST_TOPIC key value kb vb : PyVal) (w : World),
    (forall h c, impl_new cimpl h c = None) ->
    (forall h t v k, impl_produce cimpl h t v k = None) ->
    (forall h, serialize ks h key TEST_TOPIC true = Return kb) ->
    (is_not_None value = true ->
     forall h, serialize vs h value TEST_TOPIC false = Return vb) ->
    let cfg := effective_config hostname TestProduceConsume.PRODUCER_CONFIG in
    cfg !! "bootstrap.servers" = Some (CfgPy TestProduceConsume.KAFKA_BOOTSTRAP_SERVERS) /\
    cfg !! "acks" = Some (CfgPy (PyStr "all")) /\
    new_events (TestProduceConsume.produce_one hostname cimpl vs ks TEST_TOPIC key value) w =
      [EvLog Info "Initializing producer" [("config", LConfig cfg)];
       EvAtexitRegister M_close;
       EvImplInit cfg;
       EvSerialize KeySerializer key TEST_TOPIC true]
      ++ (if is_not_None value
          then [EvSerialize ValueSerializer value TEST_TOPIC false]
          else [])
      ++ [EvImplProduce TEST_TOPIC (if is_not_None value then vb else PyNone) kb;
          EvLog Info "Flushing producer" [];
          EvImplFlush None].
Proof.
  intros hostname cimpl vs ks TEST_TOPIC key value kb vb w Hnew Hprod Hks Hvs cfg.
  subst cfg. split; [| split].
  - unfold effective_config, TestProduceConsume.PRODUCER_CONFIG. cbn zeta.
    lookup_literal. apply lookup_union_Some_l. apply lookup_singleton_eq.
  - unfold effective_config, TestProduceConsume.PRODUCER_CONFIG, DEFAULT_CONFIG. cbn zeta.
    lookup_literal. rewrite lookup_union_r by (by apply lookup_singleton_ne).
    by lookup_literal.
  - unfold new_events, TestProduceConsume.produce_one, TestProduceConsume.producer,
      __init__, _init_producer_impl, atexit_register, produce, _produce, flush.
    step_monad. rewrite Hnew. simpl. rewrite Hks. simpl.
    destruct value; simpl in *; rewrite ?(Hvs eq_refl); simpl; rewrite Hprod; simpl;
      destruct (impl_flush cimpl _ None); new_trace; reflexivity.
Qed.

(** The theorem at the tombstone test, with pass-through serializers. *)
Lemma system_test_producer_side_witness :
  new_events (TestProduceConsume.produce_one
                "host" Fixtures.quiet_client Fixtures.passthrough Fixtures.passthrough
                (PyStr "test.test.0") Fixtures.k1 PyNone)
             Fixtures.w0 =
    [EvLog Info "Initializing producer"
           [("config",
             LConfig (effective_config "host" TestProduceConsume.PRODUCER_CONFIG))];
     EvAtexitRegister M_close;
     EvImplInit (effective_config "host" TestProduceConsume.PRODUCER_CONFIG);
     EvSerialize KeySerializer Fixtures.k1 (PyStr "test.test.0") true;
     EvImplProduce (PyStr "test.test.0") PyNone Fixtures.k1;
     EvLog Info "Flushing producer" [];
     EvImplFlush None].
Proof.
  exact (proj2 (proj2 (system_test_producer_side
           "host" Fixtures.quiet_client Fixtures.passthrough Fixtures.passthrough
           (PyStr "test.test.0") Fixtures.k1 PyNone Fixtures.k1 PyNone Fixtures.w0
           (fun _ _ => eq_refl) (fun _ _ _ _ => eq_refl)
           (fun _ => eq_refl) (fun _ _ => eq_refl)))).
Defined.

(** A second run of the theorem, at the test with a value. *)
Lemma system_test_producer_side_with_value :
  exists evs,
    new_events (TestProduceConsume.produce_one
                  "host" Fixtures.quiet_client Fixtures.passthrough Fixtures.passthrough
                  (PyStr "test.test.0") Fixtures.k1 Fixtures.v1)
               Fixtures.w0 =
      evs ++ [EvImplProduce (PyStr "test.test.0") Fixtures.v1 Fixtures.k1;
              EvLog Info "Flushing producer" [];
              EvImplFlush None].
Proof. by eexists [_; _; _; _; _]. Qed.

(** ** What success observers are passed *)

(** X14.  On a successful delivery every call of a success observer passes
    one argument, [err], which is [None] on that branch: a success observer
    is never handed the delivered message, its topic, key or partition. *)
Theorem success_observers_are_passed_none :
  forall (self : Producer) (msg : Message) (w : World),
    Forall (fun ev => forall name args, ev = EvCallback name args -> args = [ArgErr None])
           (new_events (_on_delivery self None msg) w).
Proof. intros self msg w. apply success_observers_never_see_message. Qed.
